(** * web_search_mcp: a minimal MCP server over stdin/stdout

    Shallow embedding of [src/web_search_mcp.py] and the properties of its
    dispatcher ([handle_request]), its backend adapter ([search]) and its
    line loop ([main]).

    Python values that the program manipulates are exactly the values
    [json.loads] can produce, so one inductive type [value] stands for both.
    Python exceptions are explicit results ([pyresult]); the process state
    (HTTP calls made so far, stdout, stderr) is threaded through a small
    state-and-exception monad [M].  Library code that is not part of the
    repository ([json.loads], [json.dumps], [requests.post], [repr],
    [traceback.format_exc]) is a [runtime] record the development is
    parametric in. *)

From Stdlib Require Import ZArith List String Ascii Bool.
From Stdlib Require Import DecimalString SpecFloat.
Import ListNotations.
Open Scope string_scope.

(** ** Python values *)

#[local] Unset Elimination Schemes.
Inductive value : Type :=
| VNone
| VBool (b : bool)
| VInt (n : Z)
| VFloat (f : spec_float)
| VStr (s : string)
| VList (l : list value)
| VDict (d : list (string * value)).
#[local] Set Elimination Schemes.

(** Exception classes the program distinguishes: [main] has one handler for
    [json.JSONDecodeError] and one for every other [Exception]. *)
Inductive exn_class : Type :=
| AttributeError
| TypeError
| JSONDecodeError
| OtherException.

Record exn : Type := mkExn { exn_cls : exn_class; exn_msg : string }.

Inductive pyresult (A : Type) : Type :=
| Ok (a : A)
| Raise (e : exn).
Arguments Ok {A} a.
Arguments Raise {A} e.

Definition dquote : string := String (ascii_of_nat 34) EmptyString.
Definition newline : string := String (ascii_of_nat 10) EmptyString.

(** [type(v).__name__] *)
Definition type_name (v : value) : string :=
  match v with
  | VNone => "NoneType"
  | VBool _ => "bool"
  | VInt _ => "int"
  | VFloat _ => "float"
  | VStr _ => "str"
  | VList _ => "list"
  | VDict _ => "dict"
  end.

Definition attribute_error (v : value) (attr : string) : exn :=
  mkExn AttributeError
        ("'" ++ type_name v ++ "' object has no attribute '" ++ attr ++ "'").

Definition not_iterable_error (v : value) : exn :=
  mkExn TypeError ("'" ++ type_name v ++ "' object is not iterable").

Definition concat_error (v : value) : exn :=
  mkExn TypeError
        ("can only concatenate str (not " ++ dquote ++ type_name v ++ dquote
         ++ ") to str").

(** A dictionary is the list of its items in insertion order (the order
    shows in [json.dumps]), with pairwise distinct keys; lookup returns the
    entry of the key. *)
Fixpoint dict_lookup (d : list (string * value)) (k : string) : option value :=
  match d with
  | [] => None
  | (k', v) :: rest => if String.eqb k' k then Some v else dict_lookup rest k
  end.

(** [dict.get(d, key, default)] *)
Definition dict_get (d : list (string * value)) (key : string)
  (default : value) : value :=
  match dict_lookup d key with
  | Some v => v
  | None => default
  end.

(** [obj.get(key, default)]: only dictionaries have a [get] method. *)
Definition py_get (obj : value) (key : string) (default : value)
  : pyresult value :=
  match obj with
  | VDict d => Ok (dict_get d key default)
  | _ => Raise (attribute_error obj "get")
  end.

(** [v == "literal"] *)
Definition py_eq_str (v : value) (lit : string) : bool :=
  match v with
  | VStr s => String.eqb s lit
  | _ => false
  end.

(** [bool(v)] *)
Definition py_truthy (v : value) : bool :=
  match v with
  | VNone => false
  | VBool b => b
  | VInt n => negb (Z.eqb n 0)
  | VFloat f =>
      match f with
      | S754_zero _ => false
      | _ => true
      end
  | VStr s => negb (String.eqb s "")
  | VList l => match l with [] => false | _ => true end
  | VDict d => match d with [] => false | _ => true end
  end.

Fixpoint chars_of (s : string) : list value :=
  match s with
  | EmptyString => []
  | String c rest => VStr (String c EmptyString) :: chars_of rest
  end.

(** The sequence a [for] loop walks: list elements, the characters of a
    string, the keys of a dictionary; anything else is not iterable. *)
Definition py_iter (v : value) : pyresult (list value) :=
  match v with
  | VList l => Ok l
  | VStr s => Ok (chars_of s)
  | VDict d => Ok (map (fun kv => VStr (fst kv)) d)
  | _ => Raise (not_iterable_error v)
  end.

(** [acc += v] for a string [acc] *)
Definition py_str_iadd (acc : string) (v : value) : pyresult string :=
  match v with
  | VStr s => Ok (acc ++ s)
  | _ => Raise (concat_error v)
  end.

(** [str(n)] for an integer *)
Definition str_int (n : Z) : string := NilZero.string_of_int (Z.to_int n).

(** ** The world outside the repository *)

Record post_call : Type := mkPost
  { post_url : string; post_headers : value; post_json : value }.

Record http_response : Type := mkResponse
  { status_code : Z;
    text : string;
    json : pyresult value  (* what [response.json()] does *) }.

Record runtime : Type := mkRuntime
  { json_loads : string -> pyresult value;
    json_dumps : value -> string;
    (* the backend: earlier calls, this call, what [requests.post] does *)
    requests_post : list post_call -> post_call -> pyresult http_response;
    (* [repr] of floats, lists and dictionaries *)
    py_repr : value -> string;
    format_exc : exn -> string }.

Record world : Type := mkWorld
  { posted : list post_call;
    stdout : list string;
    stderr : list string }.

(** ** State and exception monad *)

Definition M (A : Type) : Type := world -> pyresult A * world.

Definition ret {A} (a : A) : M A := fun w => (Ok a, w).

Definition bind {A B} (m : M A) (k : A -> M B) : M B :=
  fun w =>
    match m w with
    | (Ok a, w') => k a w'
    | (Raise e, w') => (Raise e, w')
    end.

Definition lift {A} (r : pyresult A) : M A := fun w => (r, w).

Definition try_except {A} (body : M A) (handler : exn -> M A) : M A :=
  fun w =>
    match body w with
    | (Ok a, w') => (Ok a, w')
    | (Raise e, w') => handler e w'
    end.

Declare Scope py_scope.
Delimit Scope py_scope with py.
Notation "x <- m ;; k" := (bind m (fun x => k))
  (at level 100, m at next level, right associativity) : py_scope.
Notation "m ;;; k" := (bind m (fun _ => k))
  (at level 100, right associativity) : py_scope.
Open Scope py_scope.

Definition stdout_write (s : string) : M unit :=
  fun w => (Ok tt, mkWorld (posted w) (stdout w ++ [s]) (stderr w)).

Definition stderr_write (s : string) : M unit :=
  fun w => (Ok tt, mkWorld (posted w) (stdout w) (stderr w ++ [s])).

(** ** The program *)

Definition PROXY_URL : string := "http://localhost:8080/v1/messages".
Definition API_KEY : string := "test".

Section Program.

Variable rt : runtime.

(** [str(v)], as an f-string field formats it. *)
Definition py_str (v : value) : string :=
  match v with
  | VNone => "None"
  | VBool true => "True"
  | VBool false => "False"
  | VInt n => str_int n
  | VStr s => s
  | _ => py_repr rt v
  end.

(** [requests.post(url, headers=headers, json=payload)] *)
Definition post (url : string) (headers payload : value) : M http_response :=
  fun w =>
    let call := mkPost url headers payload in
    (requests_post rt (posted w) call,
     mkWorld (posted w ++ [call]) (stdout w) (stderr w)).

(** The [for block in content_blocks] loop of [search], with the running
    [text_response]. *)
Fixpoint for_blocks (blocks : list value) (text_response : string)
  : pyresult string :=
  match blocks with
  | [] => Ok text_response
  | block :: rest =>
      match py_get block "type" VNone with
      | Raise e => Raise e
      | Ok ty =>
          if py_eq_str ty "text" then
            match py_get block "text" (VStr "") with
            | Raise e => Raise e
            | Ok t =>
                match py_str_iadd text_response t with
                | Raise e => Raise e
                | Ok text_response' => for_blocks rest text_response'
                end
            end
          else for_blocks rest text_response
      end
  end.

(** The locals [headers] and [payload] of [search]. *)
Definition search_headers : value :=
  VDict [("x-api-key", VStr API_KEY);
         ("Content-Type", VStr "application/json")].

Definition search_payload (query : value) : value :=
  VDict [("model", VStr "web-search");
         ("messages",
          VList [VDict [("role", VStr "user"); ("content", query)]]);
         ("max_tokens", VInt 1024)].

Definition search (query : value) : M string :=
  let headers := search_headers in
  let payload := search_payload query in
  try_except
    (response <- post PROXY_URL headers payload ;;
     if negb (Z.eqb (status_code response) 200) then
       ret ("Error: Proxy returned status " ++ str_int (status_code response)
            ++ " - " ++ text response)
     else
       data <- lift (json response) ;;
       content_blocks <- lift (py_get data "content" (VList [])) ;;
       blocks <- lift (py_iter content_blocks) ;;
       text_response <- lift (for_blocks blocks "") ;;
       ret (if String.eqb text_response "" then "No results found."
            else text_response))
    (fun e => ret ("Request failed: " ++ exn_msg e)).

Definition initialize_result : value :=
  VDict [("protocolVersion", VStr "2024-11-05");
         ("capabilities", VDict [("tools", VDict [])]);
         ("serverInfo",
          VDict [("name", VStr "Antigravity Search");
                 ("version", VStr "1.0.0")])].

Definition search_tool : value :=
  VDict [("name", VStr "search");
         ("description",
          VStr "Performs a Google Search using the Antigravity Proxy.");
         ("inputSchema",
          VDict [("type", VStr "object");
                 ("properties",
                  VDict [("query",
                          VDict [("type", VStr "string");
                                 ("description", VStr "The search query")])]);
                 ("required", VList [VStr "query"])])].

Definition result_response (req_id result : value) : value :=
  VDict [("jsonrpc", VStr "2.0"); ("id", req_id); ("result", result)].

Definition error_response (req_id : value) (code : Z) (message : string)
  : value :=
  VDict [("jsonrpc", VStr "2.0"); ("id", req_id);
         ("error", VDict [("code", VInt code); ("message", VStr message)])].

Definition handle_request (request : value) : M value :=
  method <- lift (py_get request "method" VNone) ;;
  params <- lift (py_get request "params" (VDict [])) ;;
  req_id <- lift (py_get request "id" VNone) ;;
  if py_eq_str method "initialize" then
    ret (result_response req_id initialize_result)
  else if py_eq_str method "notifications/initialized" then
    ret VNone
  else if py_eq_str method "tools/list" then
    ret (result_response req_id (VDict [("tools", VList [search_tool])]))
  else if py_eq_str method "tools/call" then
    tool_name <- lift (py_get params "name" VNone) ;;
    args <- lift (py_get params "arguments" (VDict [])) ;;
    if py_eq_str tool_name "search" then
      query <- lift (py_get args "query" VNone) ;;
      result <- search query ;;
      ret (result_response req_id
             (VDict [("content",
                      VList [VDict [("type", VStr "text");
                                    ("text", VStr result)]])]))
    else
      ret (error_response req_id (-32601)
             ("Tool not found: " ++ py_str tool_name))
  else
    ret VNone.

(** The part of the loop body of [main] after the end-of-stream test. *)
Definition loop_body (line : string) : M unit :=
  request <- lift (json_loads rt line) ;;
  response <- handle_request request ;;
  if py_truthy response then
    stdout_write (json_dumps rt response ++ newline)
  else ret tt.

(** One loop iteration on a line that is not the end of the stream, with the
    two handlers of [main]. *)
Definition loop_iteration (line : string) : M unit :=
  try_except (loop_body line)
    (fun e =>
       match exn_cls e with
       | JSONDecodeError =>
           stderr_write ("Failed to decode JSON: " ++ line ++ newline)
       | _ => stderr_write (format_exc rt e)
       end).

(** [while True] over the lines still to be read from stdin; [readline]
    returns the empty string when none is left. *)
Fixpoint main_loop (stdin : list string) : M unit :=
  match stdin with
  | [] => ret tt
  | line :: rest =>
      if String.eqb line "" then ret tt
      else (loop_iteration line ;;; main_loop rest)
  end.

Definition main (stdin : list string) : M unit :=
  stderr_write ("Starting Minimal MCP Server..." ++ newline) ;;;
  main_loop stdin.

End Program.

(** ** Vocabulary of the statements *)

(** A field of a response object. *)
Definition response_field (r : value) (k : string) : option value :=
  match r with
  | VDict fields => dict_lookup fields k
  | _ => None
  end.

(** The HTTP call [search] makes for a query. *)
Definition search_call (query : value) : post_call :=
  mkPost PROXY_URL search_headers (search_payload query).

(** The response of a successful [tools/call]. *)
Definition tool_result (req_id : value) (result : string) : value :=
  result_response req_id
    (VDict [("content",
             VList [VDict [("type", VStr "text"); ("text", VStr result)]])]).

(** [needle] occurs in [hay]. *)
Definition contains (hay needle : string) : Prop :=
  exists before after, hay = before ++ needle ++ after.

(** A runtime for closed examples: every line decodes to [decoded], the
    backend always does [outcome]. *)
Definition example_runtime (decoded : pyresult value)
  (outcome : pyresult http_response) : runtime :=
  mkRuntime (fun _ => decoded) (fun _ => "{...}") (fun _ _ => outcome)
            (fun v => "<" ++ type_name v ++ ">") exn_msg.

Definition empty_world : world := mkWorld [] [] [].

(** The methods [handle_request] has a branch for. *)
Definition known_methods : list value :=
  [VStr "initialize"; VStr "notifications/initialized"; VStr "tools/list";
   VStr "tools/call"].

(** The part of [search] that reads a decoded 200 body: the [content]
    member, its iteration, the loop. *)
Definition collect_text (data : value) : pyresult string :=
  match py_get data "content" (VList []) with
  | Raise e => Raise e
  | Ok content_blocks =>
      match py_iter content_blocks with
      | Raise e => Raise e
      | Ok blocks => for_blocks blocks ""
      end
  end.

(** What [search] returns, as a function of what the backend did. *)
Definition search_outcome_text (outcome : pyresult http_response) : string :=
  match outcome with
  | Raise e => "Request failed: " ++ exn_msg e
  | Ok response =>
      if Z.eqb (status_code response) 200 then
        match json response with
        | Raise e => "Request failed: " ++ exn_msg e
        | Ok data =>
            match collect_text data with
            | Raise e => "Request failed: " ++ exn_msg e
            | Ok t => if String.eqb t "" then "No results found." else t
            end
        end
      else
        "Error: Proxy returned status " ++ str_int (status_code response)
        ++ " - " ++ text response
  end.

(** The world after one more HTTP call. *)
Definition after_post (w : world) (call : post_call) : world :=
  mkWorld (posted w ++ [call]) (stdout w) (stderr w).

(** The spec's reading of a 200 body: the blocks of type "text", and the
    concatenation of their [text] members in array order. *)
Definition is_text_block (block : value) : bool :=
  match block with
  | VDict fields => py_eq_str (dict_get fields "type" VNone) "text"
  | _ => false
  end.

Definition block_text (block : value) : string :=
  match block with
  | VDict fields =>
      match dict_get fields "text" (VStr "") with
      | VStr s => s
      | _ => ""
      end
  | _ => ""
  end.

Definition concat_text (blocks : list value) : string :=
  fold_right String.append "" (map block_text (filter is_text_block blocks)).

(** A block of the expected shape: an object whose [text], when the block is
    of type "text" and has one, is a string. *)
Definition block_ok (block : value) : bool :=
  match block with
  | VDict fields =>
      if py_eq_str (dict_get fields "type" VNone) "text" then
        match dict_get fields "text" (VStr "") with
        | VStr _ => true
        | _ => false
        end
      else true
  | _ => false
  end.

(** The methods [handle_request] answers with a response object. *)
Definition replying_methods : list value :=
  [VStr "initialize"; VStr "tools/list"; VStr "tools/call"].

(** The Message of the data model: [params], when present, is a mapping, and
    so is its [arguments] member when present. *)
Definition mapping (v : value) : Prop := exists d, v = VDict d.

Definition well_formed_message (d : list (string * value)) : Prop :=
  exists p, dict_get d "params" (VDict []) = VDict p
            /\ mapping (dict_get p "arguments" (VDict [])).

(** The invariant of the data model, for the loop iteration that reads
    [line] and decodes it to the object [d]: a line goes to stdout if the
    message has an [id], none if it has not. *)
Definition response_iff_id (rt : runtime) (line : string)
  (d : list (string * value)) (w : world) : Prop :=
  let w' := snd (loop_iteration rt line w) in
  (dict_lookup d "id" <> None ->
   exists out, stdout w' = (stdout w ++ [out])%list)
  /\ (dict_lookup d "id" = None -> stdout w' = stdout w).

(** Two messages for the examples: an [initialize] without id, and a request
    with an id for a method the server has no branch for. *)
Definition initialize_notification : list (string * value) :=
  [("jsonrpc", VStr "2.0"); ("method", VStr "initialize")].

Definition ping_request : list (string * value) :=
  [("jsonrpc", VStr "2.0"); ("id", VInt 1); ("method", VStr "ping")].

Definition connection_refused : pyresult http_response :=
  Raise (mkExn OtherException "Connection refused").

(** Messages and backend replies for the examples. *)
Definition initialize_request : list (string * value) :=
  [("jsonrpc", VStr "2.0"); ("id", VInt 1); ("method", VStr "initialize");
   ("params", VDict [("protocolVersion", VStr "1999-01-01")])].

Definition tools_list_request : list (string * value) :=
  [("jsonrpc", VStr "2.0"); ("id", VInt 2); ("method", VStr "tools/list")].

Definition frobnicate_params : list (string * value) :=
  [("name", VStr "frobnicate"); ("arguments", VDict [])].

Definition frobnicate_request : list (string * value) :=
  [("jsonrpc", VStr "2.0"); ("id", VInt 3); ("method", VStr "tools/call");
   ("params", VDict frobnicate_params)].

Definition search_params : list (string * value) :=
  [("name", VStr "search"); ("arguments", VDict [("query", VStr "X")])].

Definition search_request : list (string * value) :=
  [("jsonrpc", VStr "2.0"); ("id", VInt 4); ("method", VStr "tools/call");
   ("params", VDict search_params)].

Definition bare_search_request : list (string * value) :=
  [("jsonrpc", VStr "2.0"); ("id", VInt 5); ("method", VStr "tools/call");
   ("params", VDict [("name", VStr "search")])].

Definition reply_500 : http_response :=
  mkResponse 500 "boom" (Raise (mkExn JSONDecodeError "Expecting value")).

Definition reply_not_json : http_response :=
  mkResponse 200 "<html>" (Raise (mkExn JSONDecodeError "Expecting value")).

Definition reply_array_body : http_response :=
  mkResponse 200 "[]" (Ok (VList [])).

Definition hello_blocks : list value :=
  [VDict [("type", VStr "text"); ("text", VStr "hello")];
   VDict [("type", VStr "image")];
   VDict [("type", VStr "text"); ("text", VStr " world")]].

Definition hello_body : list (string * value) :=
  [("content", VList hello_blocks)].

Definition reply_hello : http_response :=
  mkResponse 200 "..." (Ok (VDict hello_body)).

(** A response object: the version tag, an id, and one member that is
    either [result] or [error]. *)
Definition is_response (req_id r : value) : Prop :=
  exists (member : string) (body : value),
    (member = "result" \/ member = "error")
    /\ r = VDict [("jsonrpc", VStr "2.0"); ("id", req_id); (member, body)].

(** A line of the protocol stream: a serialized response and a newline. *)
Definition response_line (rt : runtime) (out : string) : Prop :=
  exists req_id r,
    is_response req_id r /\ out = json_dumps rt r ++ newline.

Definition is_search_call (call : post_call) : Prop :=
  exists query, call = search_call query.

(** The exception the loop of [search] raises on a block that is not of the
    expected shape: no [get] on a block that is not an object, no [+=] of
    a [text] that is not a string. *)
Definition block_error (block : value) : exn :=
  match block with
  | VDict fields => concat_error (dict_get fields "text" (VStr ""))
  | _ => attribute_error block "get"
  end.

(** What [search] makes of a [content] member that is not a list. *)
Definition odd_content_text (content : value) : string :=
  match content with
  | VStr "" => "No results found."
  | VDict [] => "No results found."
  | VStr _ => "Request failed: 'str' object has no attribute 'get'"
  | VDict _ => "Request failed: 'str' object has no attribute 'get'"
  | _ => "Request failed: '" ++ type_name content ++ "' object is not iterable"
  end.

Definition banner : string := "Starting Minimal MCP Server..." ++ newline.

(** More replies and messages for the examples. *)
Definition broken_blocks : list value :=
  [VDict [("type", VStr "text"); ("text", VStr "hello")];
   VDict [("type", VStr "text"); ("text", VNone)];
   VDict [("type", VStr "text"); ("text", VStr " world")]].

Definition reply_broken : http_response :=
  mkResponse 200 "..." (Ok (VDict [("content", VList broken_blocks)])).

Definition reply_null_content : http_response :=
  mkResponse 200 "..." (Ok (VDict [("content", VNone)])).

Definition null_params_call : list (string * value) :=
  [("jsonrpc", VStr "2.0"); ("id", VInt 6); ("method", VStr "tools/call");
   ("params", VNone)].

(** ** Basic facts about the Python operations *)

Lemma py_eq_str_true (v : value) (lit : string) :
  py_eq_str v lit = true <-> v = VStr lit.
Proof.
  destruct v; simpl; try (split; [discriminate | intro E; discriminate E]).
  rewrite String.eqb_eq. split; intro E.
  - now subst.
  - now injection E.
Qed.

Lemma py_eq_str_false (v : value) (lit : string) :
  py_eq_str v lit = false <-> v <> VStr lit.
Proof.
  rewrite <- py_eq_str_true. destruct (py_eq_str v lit); split; intro E;
    try reflexivity; try discriminate.
  now elim E.
Qed.

Lemma py_eq_str_refl (lit : string) : py_eq_str (VStr lit) lit = true.
Proof. now apply py_eq_str_true. Qed.

Lemma py_get_not_dict (v : value) (key : string) (default : value) :
  (forall d, v <> VDict d) ->
  py_get v key default = Raise (attribute_error v "get").
Proof.
  intro H. destruct v; try reflexivity. now elim (H d).
Qed.

Lemma str_app_empty_r (s : string) : s ++ "" = s.
Proof. induction s as [|c s IH]; simpl; [reflexivity | now rewrite IH]. Qed.

Lemma str_app_assoc (s t u : string) : (s ++ t) ++ u = s ++ t ++ u.
Proof. induction s as [|c s IH]; simpl; [reflexivity | now rewrite IH]. Qed.

Lemma contains_app_l (s t : string) : contains (s ++ t) s.
Proof. exists "", t. reflexivity. Qed.

Lemma contains_app_r (s t : string) : contains (s ++ t) t.
Proof. exists s, "". now rewrite str_app_empty_r. Qed.

Lemma contains_trans_app (pre s needle : string) :
  contains s needle -> contains (pre ++ s) needle.
Proof.
  intros (b & a & ->). exists (pre ++ b), a. now rewrite str_app_assoc.
Qed.

Section Properties.

Variable rt : runtime.

(** How [handle_request] dispatches on an object: the three [get]s succeed
    and the method decides. *)
Lemma handle_request_dict (d : list (string * value)) :
  handle_request rt (VDict d) =
  let method := dict_get d "method" VNone in
  let params := dict_get d "params" (VDict []) in
  let req_id := dict_get d "id" VNone in
  if py_eq_str method "initialize" then
    ret (result_response req_id initialize_result)
  else if py_eq_str method "notifications/initialized" then
    ret VNone
  else if py_eq_str method "tools/list" then
    ret (result_response req_id (VDict [("tools", VList [search_tool])]))
  else if py_eq_str method "tools/call" then
    tool_name <- lift (py_get params "name" VNone) ;;
    args <- lift (py_get params "arguments" (VDict [])) ;;
    if py_eq_str tool_name "search" then
      query <- lift (py_get args "query" VNone) ;;
      result <- search rt query ;;
      ret (tool_result req_id result)
    else
      ret (error_response req_id (-32601)
             ("Tool not found: " ++ py_str rt tool_name))
  else
    ret VNone.
Proof. reflexivity. Qed.

(** A value without a [get] method makes [handle_request] raise at its first
    statement. *)
Lemma handle_request_not_dict (v : value) (w : world) :
  (forall d, v <> VDict d) ->
  handle_request rt v w = (Raise (attribute_error v "get"), w).
Proof.
  intro H. unfold handle_request, bind, lift.
  now rewrite (py_get_not_dict v "method" VNone H).
Qed.

(** What a loop iteration does with a decoded message that [handle_request]
    answers by an object: one line on stdout. *)
Lemma loop_iteration_response (line : string) (request : value)
  (fields : list (string * value)) (w w' : world) :
  json_loads rt line = Ok request ->
  handle_request rt request w = (Ok (VDict fields), w') ->
  fields <> [] ->
  stdout (snd (loop_iteration rt line w)) =
    (stdout w' ++ [(json_dumps rt (VDict fields) ++ newline)%string])%list.
Proof.
  intros Hl Hr Hf.
  unfold loop_iteration, try_except, loop_body, bind, lift.
  rewrite Hl, Hr. destruct fields; [now elim Hf | reflexivity].
Qed.

Lemma loop_iteration_none (line : string) (request : value) (w w' : world) :
  json_loads rt line = Ok request ->
  handle_request rt request w = (Ok VNone, w') ->
  stdout (snd (loop_iteration rt line w)) = stdout w'.
Proof.
  intros Hl Hr.
  unfold loop_iteration, try_except, loop_body, bind, lift.
  now rewrite Hl, Hr.
Qed.

(** C7: [initialize] succeeds on every request object whatever its params
    (and whatever protocolVersion they ask for), leaves the world as it was,
    and answers with the fixed result
    {protocolVersion, capabilities: {tools: {}}, serverInfo: {name, version}};
    two successive calls, on any two such requests, carry the same [result]. *)
Theorem initialize_always_succeeds_idempotent :
  forall (d : list (string * value)) (w : world),
    dict_get d "method" VNone = VStr "initialize" ->
    handle_request rt (VDict d) w =
      (Ok (VDict
             [("jsonrpc", VStr "2.0");
              ("id", dict_get d "id" VNone);
              ("result",
               VDict
                 [("protocolVersion", VStr "2024-11-05");
                  ("capabilities", VDict [("tools", VDict [])]);
                  ("serverInfo",
                   VDict [("name", VStr "Antigravity Search");
                          ("version", VStr "1.0.0")])])]), w)
    /\ forall d' : list (string * value),
        dict_get d' "method" VNone = VStr "initialize" ->
        exists r1 r2,
          handle_request rt (VDict d) w = (Ok r1, w)
          /\ handle_request rt (VDict d') w = (Ok r2, w)
          /\ response_field r1 "result" = response_field r2 "result"
          /\ response_field r1 "result" <> None.
Proof.
  assert (init : forall d0 w0,
             dict_get d0 "method" VNone = VStr "initialize" ->
             handle_request rt (VDict d0) w0 =
               (Ok (result_response (dict_get d0 "id" VNone)
                      initialize_result), w0)).
  { intros d0 w0 H0. rewrite handle_request_dict. cbv zeta.
    rewrite H0, py_eq_str_refl. reflexivity. }
  intros d w Hm. split.
  - now rewrite init.
  - intros d' Hm'.
    exists (result_response (dict_get d "id" VNone) initialize_result),
           (result_response (dict_get d' "id" VNone) initialize_result).
    repeat split; try now apply init.
    discriminate.
Qed.

(** C8: every [tools/list] request is answered, without touching the world,
    with a [tools] list of exactly one descriptor: it is named "search" and
    its inputSchema has the single property [query], of type string, listed
    as required.  The result depends on nothing but the echoed id. *)
Theorem tools_list_single_search_tool :
  exists description query_description,
    forall (d : list (string * value)) (w : world),
      dict_get d "method" VNone = VStr "tools/list" ->
      handle_request rt (VDict d) w =
        (Ok (VDict
               [("jsonrpc", VStr "2.0");
                ("id", dict_get d "id" VNone);
                ("result",
                 VDict
                   [("tools",
                     VList
                       [VDict
                          [("name", VStr "search");
                           ("description", VStr description);
                           ("inputSchema",
                            VDict
                              [("type", VStr "object");
                               ("properties",
                                VDict
                                  [("query",
                                    VDict
                                      [("type", VStr "string");
                                       ("description",
                                        VStr query_description)])]);
                               ("required", VList [VStr "query"])])]])])]),
         w).
Proof.
  eexists _, _. intros d w Hm.
  rewrite handle_request_dict. cbv zeta. rewrite Hm. reflexivity.
Qed.

Lemma unknown_method_tests (method : value) :
  ~ In method known_methods ->
  py_eq_str method "initialize" = false
  /\ py_eq_str method "notifications/initialized" = false
  /\ py_eq_str method "tools/list" = false
  /\ py_eq_str method "tools/call" = false.
Proof.
  intro H. repeat split; apply py_eq_str_false; intro E; apply H; rewrite E;
    simpl; tauto.
Qed.

(** C2: a message whose method is none of initialize,
    notifications/initialized, tools/list, tools/call (a missing or
    non-string method included) makes [handle_request] return [None] with no
    effect, and the loop iteration that decoded it writes nothing, neither
    to stdout nor to stderr, whether or not the message has an id. *)
Theorem unknown_method_no_output :
  forall (d : list (string * value)) (w : world),
    ~ In (dict_get d "method" VNone) known_methods ->
    handle_request rt (VDict d) w = (Ok VNone, w)
    /\ forall line : string,
        json_loads rt line = Ok (VDict d) ->
        loop_iteration rt line w = (Ok tt, w).
Proof.
  intros d w H.
  destruct (unknown_method_tests _ H) as (E1 & E2 & E3 & E4).
  assert (HR : handle_request rt (VDict d) w = (Ok VNone, w)).
  { rewrite handle_request_dict. cbv zeta. now rewrite E1, E2, E3, E4. }
  split; [exact HR|].
  intros line Hl. unfold loop_iteration, try_except, loop_body, bind, lift.
  rewrite Hl, HR. reflexivity.
Qed.

(** [search] always hands back a string: whatever is raised inside its
    [try] block is turned into text by the handler. *)
Lemma search_eq (query : value) (w : world) :
  search rt query w =
  (Ok (search_outcome_text
         (requests_post rt (posted w) (search_call query))),
   after_post w (search_call query)).
Proof.
  unfold search, try_except, bind, post, lift, ret, search_outcome_text,
    collect_text, after_post, search_call.
  cbv zeta.
  destruct (requests_post rt (posted w) _) as [response|e]; [|reflexivity].
  destruct (status_code response =? 200)%Z; [|reflexivity]. simpl.
  destruct (json response) as [data|e]; [|reflexivity].
  destruct (py_get data "content" (VList [])) as [blocks|e]; [|reflexivity].
  destruct (py_iter blocks) as [l|e]; [|reflexivity].
  destruct (for_blocks l "") as [t|e]; reflexivity.
Qed.

Lemma search_returns (query : value) (w : world) :
  exists s, search rt query w = (Ok s, snd (search rt query w)).
Proof. rewrite search_eq. eauto. Qed.

(** C3: a [tools/call] whose params are a mapping and whose [name] is not
    "search" (a missing name reads as [None]) is answered, with no effect,
    by an error response with code -32601 and message
    "Tool not found: <name>", which contains a string name as it is; and
    every response of [handle_request] that has an [error] member is this
    one. *)
Theorem unknown_tool_is_the_only_error :
  (forall (d p : list (string * value)) (w : world),
      dict_get d "method" VNone = VStr "tools/call" ->
      dict_get d "params" (VDict []) = VDict p ->
      dict_get p "name" VNone <> VStr "search" ->
      handle_request rt (VDict d) w =
        (Ok (VDict
               [("jsonrpc", VStr "2.0");
                ("id", dict_get d "id" VNone);
                ("error",
                 VDict
                   [("code", VInt (-32601));
                    ("message",
                     VStr ("Tool not found: "
                           ++ py_str rt (dict_get p "name" VNone)))])]), w)
      /\ forall name : string,
          dict_get p "name" VNone = VStr name ->
          contains ("Tool not found: " ++ py_str rt (dict_get p "name" VNone))
                   name)
  /\ (forall (request r e : value) (w w' : world),
        handle_request rt request w = (Ok r, w') ->
        response_field r "error" = Some e ->
        exists d p,
          request = VDict d
          /\ dict_get d "method" VNone = VStr "tools/call"
          /\ dict_get d "params" (VDict []) = VDict p
          /\ dict_get p "name" VNone <> VStr "search"
          /\ e = VDict
                  [("code", VInt (-32601));
                   ("message",
                    VStr ("Tool not found: "
                          ++ py_str rt (dict_get p "name" VNone)))]).
Proof.
  split.
  - intros d p w Hm Hp Hn. split.
    + rewrite handle_request_dict. cbv zeta. rewrite Hm, Hp. simpl.
      apply py_eq_str_false in Hn.
      unfold bind, lift. simpl. rewrite Hn. reflexivity.
    + intros name E. rewrite E. apply contains_app_r.
  - intros request r e w w' H He.
    destruct request as [| | | | | |d];
      try (rewrite handle_request_not_dict in H by discriminate;
           discriminate H).
    rewrite handle_request_dict in H. cbv zeta in H.
    destruct (py_eq_str (dict_get d "method" VNone) "initialize");
      [injection H as <- _; discriminate He|].
    destruct (py_eq_str (dict_get d "method" VNone)
                "notifications/initialized");
      [injection H as <- _; discriminate He|].
    destruct (py_eq_str (dict_get d "method" VNone) "tools/list");
      [injection H as <- _; discriminate He|].
    destruct (py_eq_str (dict_get d "method" VNone) "tools/call") eqn:Hm;
      [|injection H as <- _; discriminate He].
    apply py_eq_str_true in Hm.
    destruct (dict_get d "params" (VDict [])) as [| | | | | |p] eqn:Hp;
      try discriminate H.
    unfold bind, lift in H. simpl in H.
    destruct (py_eq_str (dict_get p "name" VNone) "search") eqn:Hn.
    + destruct (py_get (dict_get p "arguments" (VDict [])) "query" VNone)
        as [query|ex]; [|discriminate H].
      destruct (search_returns query w) as (s & Hs).
      rewrite Hs in H. injection H as <- _. discriminate He.
    + apply py_eq_str_false in Hn. injection H as <- _.
      injection He as <-. exists d, p. repeat split; assumption.
Qed.

(** C4: [search] never raises.  For every query and every world it returns a
    string, having made exactly one HTTP call; when [requests.post] raises,
    when the status is not 200, when [response.json()] raises and when the
    decoded body is not of the expected shape, that string is the text of
    the failure. *)
Theorem search_never_raises :
  forall (query : value) (w : world),
    exists s : string,
      search rt query w = (Ok s, after_post w (search_call query))
      /\ (forall e,
            requests_post rt (posted w) (search_call query) = Raise e ->
            s = "Request failed: " ++ exn_msg e)
      /\ (forall response,
            requests_post rt (posted w) (search_call query) = Ok response ->
            status_code response <> 200%Z ->
            s = "Error: Proxy returned status "
                ++ str_int (status_code response) ++ " - " ++ text response)
      /\ (forall response e,
            requests_post rt (posted w) (search_call query) = Ok response ->
            status_code response = 200%Z ->
            json response = Raise e ->
            s = "Request failed: " ++ exn_msg e)
      /\ (forall response data e,
            requests_post rt (posted w) (search_call query) = Ok response ->
            status_code response = 200%Z ->
            json response = Ok data ->
            collect_text data = Raise e ->
            s = "Request failed: " ++ exn_msg e).
Proof.
  intros query w. eexists. split; [apply search_eq|].
  unfold search_outcome_text. repeat split.
  - intros e ->. reflexivity.
  - intros response -> Hs. apply Z.eqb_neq in Hs. now rewrite Hs.
  - intros response e -> -> ->. reflexivity.
  - intros response data e -> -> -> ->. reflexivity.
Qed.

(** The loop of [search] on blocks of the expected shape appends the text of
    the "text" blocks, in order, to what it has so far. *)
Lemma concat_text_cons (block : value) (rest : list value) :
  concat_text (block :: rest) =
  if is_text_block block then block_text block ++ concat_text rest
  else concat_text rest.
Proof.
  unfold concat_text. simpl. now destruct (is_text_block block).
Qed.

Lemma for_blocks_concat (blocks : list value) :
  forallb block_ok blocks = true ->
  forall acc : string,
    for_blocks blocks acc = Ok (acc ++ concat_text blocks).
Proof.
  induction blocks as [|block rest IH]; intros Hok acc.
  - unfold concat_text. simpl. now rewrite str_app_empty_r.
  - simpl in Hok. apply andb_prop in Hok as [Hb Hrest].
    rewrite concat_text_cons.
    destruct block as [| | | | | |fields]; try discriminate Hb.
    simpl in *.
    destruct (py_eq_str (dict_get fields "type" VNone) "text").
    + destruct (dict_get fields "text" (VStr "")) as [| | | |t| |];
        try discriminate Hb.
      simpl. rewrite (IH Hrest). now rewrite str_app_assoc.
    + now rewrite (IH Hrest).
Qed.

(** C5: on a 200 reply whose body is an object with a [content] array (an
    absent one reads as empty) of blocks of the expected shape, [search]
    returns the texts of the blocks of type "text", concatenated in array
    order, and "No results found." when that concatenation is empty. *)
Theorem search_200_concatenates_text :
  forall (query : value) (w : world) (response : http_response)
         (body : list (string * value)) (blocks : list value),
    requests_post rt (posted w) (search_call query) = Ok response ->
    status_code response = 200%Z ->
    json response = Ok (VDict body) ->
    dict_get body "content" (VList []) = VList blocks ->
    forallb block_ok blocks = true ->
    fst (search rt query w) =
      Ok (if String.eqb (concat_text blocks) "" then "No results found."
          else concat_text blocks).
Proof.
  intros query w response body blocks Hpost Hst Hjson Hcontent Hok.
  rewrite search_eq. simpl. unfold search_outcome_text, collect_text.
  rewrite Hpost, Hst, Hjson. simpl. rewrite Hcontent. simpl.
  now rewrite (for_blocks_concat blocks Hok "").
Qed.

(** A [tools/call] of "search" with mapping params and mapping arguments: one
    HTTP call for the [query] argument, and a result response around what
    [search] made of the backend's reply. *)
Lemma handle_request_search (d p a : list (string * value)) (w : world) :
  dict_get d "method" VNone = VStr "tools/call" ->
  dict_get d "params" (VDict []) = VDict p ->
  dict_get p "name" VNone = VStr "search" ->
  dict_get p "arguments" (VDict []) = VDict a ->
  let query := dict_get a "query" VNone in
  handle_request rt (VDict d) w =
    (Ok (tool_result (dict_get d "id" VNone)
           (search_outcome_text
              (requests_post rt (posted w) (search_call query)))),
     after_post w (search_call query)).
Proof.
  intros Hm Hp Hn Ha query.
  rewrite handle_request_dict. cbv zeta. rewrite Hm, Hp. simpl.
  unfold bind at 1, lift at 1. simpl. rewrite Hn, Ha. simpl.
  unfold bind, lift. simpl. fold query. rewrite search_eq. reflexivity.
Qed.

(** C6: when the backend answers a "search" call with a status other than
    200, the response is a result (it has no [error] member) whose single
    content block is the text
    "Error: Proxy returned status <code> - <body>"; for status 500 that text
    contains "500". *)
Theorem non_200_is_a_result_text :
  forall (d p a : list (string * value)) (w : world)
         (response : http_response),
    dict_get d "method" VNone = VStr "tools/call" ->
    dict_get d "params" (VDict []) = VDict p ->
    dict_get p "name" VNone = VStr "search" ->
    dict_get p "arguments" (VDict []) = VDict a ->
    requests_post rt (posted w) (search_call (dict_get a "query" VNone))
      = Ok response ->
    status_code response <> 200%Z ->
    let message :=
      "Error: Proxy returned status " ++ str_int (status_code response)
      ++ " - " ++ text response in
    exists r : value,
      fst (handle_request rt (VDict d) w) = Ok r
      /\ r = VDict
               [("jsonrpc", VStr "2.0");
                ("id", dict_get d "id" VNone);
                ("result",
                 VDict
                   [("content",
                     VList [VDict [("type", VStr "text");
                                   ("text", VStr message)]])])]
      /\ response_field r "error" = None
      /\ contains message (str_int (status_code response))
      /\ contains message (text response)
      /\ (status_code response = 500%Z -> contains message "500").
Proof.
  intros d p a w response Hm Hp Hn Ha Hpost Hst message.
  eexists. split.
  { rewrite (handle_request_search d p a w Hm Hp Hn Ha). reflexivity. }
  cbv zeta. unfold search_outcome_text. rewrite Hpost.
  apply Z.eqb_neq in Hst. rewrite Hst.
  assert (Hcode : contains message (str_int (status_code response))).
  { unfold message. apply contains_trans_app. apply contains_app_l. }
  repeat split.
  - exact Hcode.
  - unfold message. do 2 apply contains_trans_app. apply contains_app_r.
  - intro E. rewrite E in Hcode. exact Hcode.
Qed.

(** C9: arguments are not checked against the schema.  A "search" call whose
    params have no [arguments] at all, or whose arguments mapping has no
    [query], runs [search] on [None]: the payload posted has [None] as the
    content of its user message.  The answer is a result response around
    what [search] returned, it has no [error] member, and the loop iteration
    that decoded the message writes it to stdout as one line. *)
Theorem missing_query_still_searches :
  forall (d p : list (string * value)) (w : world),
    dict_get d "method" VNone = VStr "tools/call" ->
    dict_get d "params" (VDict []) = VDict p ->
    dict_get p "name" VNone = VStr "search" ->
    (dict_lookup p "arguments" = None
     \/ exists a, dict_lookup p "arguments" = Some (VDict a)
                  /\ dict_lookup a "query" = None) ->
    exists (s : string) (w' : world) (r : value),
      search rt VNone w = (Ok s, w')
      /\ r = VDict
               [("jsonrpc", VStr "2.0");
                ("id", dict_get d "id" VNone);
                ("result",
                 VDict
                   [("content",
                     VList [VDict [("type", VStr "text");
                                   ("text", VStr s)]])])]
      /\ handle_request rt (VDict d) w = (Ok r, w')
      /\ response_field r "error" = None
      /\ (forall line : string,
            json_loads rt line = Ok (VDict d) ->
            stdout (snd (loop_iteration rt line w)) =
              (stdout w ++ [(json_dumps rt r ++ newline)%string])%list)
      /\ posted w' =
           (posted w
            ++ [mkPost PROXY_URL search_headers
                  (VDict
                     [("model", VStr "web-search");
                      ("messages",
                       VList [VDict [("role", VStr "user");
                                     ("content", VNone)]]);
                      ("max_tokens", VInt 1024)])])%list.
Proof.
  intros d p w Hm Hp Hn Hargs.
  assert (exists a, dict_get p "arguments" (VDict []) = VDict a
                    /\ dict_get a "query" VNone = VNone) as (a & Ha & Hq).
  { destruct Hargs as [E | (a & E & Eq)].
    - exists []. unfold dict_get. now rewrite E.
    - exists a. unfold dict_get. now rewrite E, Eq. }
  pose proof (handle_request_search d p a w Hm Hp Hn Ha) as HR.
  cbv zeta in HR. rewrite Hq in HR.
  exists (search_outcome_text
            (requests_post rt (posted w) (search_call VNone))),
         (after_post w (search_call VNone)).
  eexists. split; [apply search_eq|]. split; [reflexivity|].
  split; [exact HR|]. split; [reflexivity|]. split; [|reflexivity].
  intros line Hl.
  now rewrite (loop_iteration_response _ _ _ _ _ Hl HR) by discriminate.
Qed.

(** C10: a line that decodes to something other than an object (a list, a
    string, a number, a boolean, null) makes [handle_request] raise
    AttributeError at its first [get]; the second handler of [main] writes
    the traceback to stderr, stdout and the HTTP log stay as they were, and
    the loop goes on with the rest of the input from that world. *)
Theorem non_object_line_is_logged_and_skipped :
  forall (line : string) (v : value) (w : world) (rest : list string),
    line <> "" ->
    json_loads rt line = Ok v ->
    (forall d, v <> VDict d) ->
    let w' :=
      mkWorld (posted w) (stdout w)
              (stderr w ++ [format_exc rt (attribute_error v "get")]) in
    loop_iteration rt line w = (Ok tt, w')
    /\ main_loop rt (line :: rest) w = main_loop rt rest w'.
Proof.
  intros line v w rest Hne Hl Hv w'.
  assert (Hit : loop_iteration rt line w = (Ok tt, w')).
  { unfold loop_iteration, try_except, loop_body, bind, lift.
    rewrite Hl, (handle_request_not_dict v w Hv). reflexivity. }
  split; [exact Hit|].
  simpl. apply String.eqb_neq in Hne. rewrite Hne.
  unfold bind. now rewrite Hit.
Qed.

Lemma handle_request_unknown_tool (d p : list (string * value)) (w : world) :
  dict_get d "method" VNone = VStr "tools/call" ->
  dict_get d "params" (VDict []) = VDict p ->
  dict_get p "name" VNone <> VStr "search" ->
  handle_request rt (VDict d) w =
    (Ok (error_response (dict_get d "id" VNone) (-32601)
           ("Tool not found: " ++ py_str rt (dict_get p "name" VNone))), w).
Proof.
  intros Hm Hp Hn.
  rewrite handle_request_dict. cbv zeta. rewrite Hm, Hp. simpl.
  apply py_eq_str_false in Hn.
  unfold bind, lift. simpl. now rewrite Hn.
Qed.

(** C1, as the code has it: whether a response line is written depends on
    the method, not on the id.  For a decoded message of the data model,
    the loop iteration writes exactly one line to stdout, the response
    echoing the message's id ([None] when it has none), when the method is
    initialize, tools/list or tools/call, and writes nothing to stdout for
    every other method. *)
Theorem response_iff_replying_method :
  forall (line : string) (d : list (string * value)) (w : world),
    json_loads rt line = Ok (VDict d) ->
    well_formed_message d ->
    let w' := snd (loop_iteration rt line w) in
    (In (dict_get d "method" VNone) replying_methods ->
     exists r : value,
       fst (handle_request rt (VDict d) w) = Ok r
       /\ response_field r "id" = Some (dict_get d "id" VNone)
       /\ stdout w' = (stdout w ++ [(json_dumps rt r ++ newline)%string])%list)
    /\ (~ In (dict_get d "method" VNone) replying_methods ->
        stdout w' = stdout w).
Proof.
  intros line d w Hl (p & Hp & (a & Ha)) w'. subst w'. split.
  - intros [E | [E | [E | []]]]; symmetry in E.
    + eexists. rewrite handle_request_dict. cbv zeta.
      rewrite E, py_eq_str_refl. simpl. repeat split.
      erewrite loop_iteration_response; [reflexivity | exact Hl | | discriminate].
      rewrite handle_request_dict. cbv zeta.
      now rewrite E, py_eq_str_refl.
    + eexists. rewrite handle_request_dict. cbv zeta.
      rewrite E. simpl. repeat split.
      erewrite loop_iteration_response; [reflexivity | exact Hl | | discriminate].
      rewrite handle_request_dict. cbv zeta.
      now rewrite E.
    + destruct (py_eq_str (dict_get p "name" VNone) "search") eqn:Hn.
      * apply py_eq_str_true in Hn.
        pose proof (handle_request_search d p a w E Hp Hn Ha) as HR.
        cbv zeta in HR. eexists. rewrite HR. simpl. repeat split.
        now rewrite (loop_iteration_response _ _ _ _ _ Hl HR) by discriminate.
      * apply py_eq_str_false in Hn.
        pose proof (handle_request_unknown_tool d p w E Hp Hn) as HR.
        eexists. rewrite HR. simpl. repeat split.
        now rewrite (loop_iteration_response _ _ _ _ _ Hl HR) by discriminate.
  - intro Hout.
    apply (loop_iteration_none line (VDict d) w w Hl).
    rewrite handle_request_dict. cbv zeta.
    destruct (py_eq_str (dict_get d "method" VNone) "initialize") eqn:E1;
      [apply py_eq_str_true in E1; elim Hout; rewrite E1; simpl; tauto|].
    destruct (py_eq_str (dict_get d "method" VNone)
                "notifications/initialized"); [reflexivity|].
    destruct (py_eq_str (dict_get d "method" VNone) "tools/list") eqn:E3;
      [apply py_eq_str_true in E3; elim Hout; rewrite E3; simpl; tauto|].
    destruct (py_eq_str (dict_get d "method" VNone) "tools/call") eqn:E4;
      [apply py_eq_str_true in E4; elim Hout; rewrite E4; simpl; tauto|].
    reflexivity.
Qed.

End Properties.

(** ** The theorems at concrete inputs *)

Lemma initialize_always_succeeds_idempotent_witness :
  dict_get initialize_request "method" VNone = VStr "initialize"
  /\ dict_get initialize_notification "method" VNone = VStr "initialize"
  /\ handle_request (example_runtime (Ok VNone) connection_refused)
       (VDict initialize_request) empty_world
     = (Ok (result_response (VInt 1) initialize_result), empty_world)
  /\ exists r1 r2,
      handle_request (example_runtime (Ok VNone) connection_refused)
        (VDict initialize_request) empty_world = (Ok r1, empty_world)
      /\ handle_request (example_runtime (Ok VNone) connection_refused)
           (VDict initialize_notification) empty_world = (Ok r2, empty_world)
      /\ response_field r1 "result" = response_field r2 "result"
      /\ response_field r1 "result" <> None.
Proof.
  split; [reflexivity|]. split; [reflexivity|].
  destruct (initialize_always_succeeds_idempotent
              (example_runtime (Ok VNone) connection_refused)
              initialize_request empty_world eq_refl) as [H1 H2].
  split; [exact H1|].
  exact (H2 initialize_notification eq_refl).
Defined.

Lemma tools_list_single_search_tool_witness :
  dict_get tools_list_request "method" VNone = VStr "tools/list"
  /\ exists r,
      handle_request (example_runtime (Ok VNone) connection_refused)
        (VDict tools_list_request) empty_world = (Ok r, empty_world).
Proof.
  split; [reflexivity|].
  destruct (tools_list_single_search_tool
              (example_runtime (Ok VNone) connection_refused))
    as (description & query_description & H).
  eexists. apply H. reflexivity.
Defined.

Lemma unknown_method_no_output_witness :
  ~ In (dict_get ping_request "method" VNone) known_methods
  /\ handle_request (example_runtime (Ok (VDict ping_request))
                       connection_refused)
       (VDict ping_request) empty_world = (Ok VNone, empty_world)
  /\ loop_iteration (example_runtime (Ok (VDict ping_request))
                       connection_refused)
       "ping" empty_world = (Ok tt, empty_world).
Proof.
  assert (H : ~ In (dict_get ping_request "method" VNone) known_methods).
  { simpl. intros [E | [E | [E | [E | []]]]]; discriminate E. }
  split; [exact H|].
  destruct (unknown_method_no_output
              (example_runtime (Ok (VDict ping_request)) connection_refused)
              ping_request empty_world H) as [H1 H2].
  split; [exact H1 | apply H2; reflexivity].
Defined.

Lemma unknown_tool_is_the_only_error_witness :
  dict_get frobnicate_request "method" VNone = VStr "tools/call"
  /\ dict_get frobnicate_request "params" (VDict []) = VDict frobnicate_params
  /\ dict_get frobnicate_params "name" VNone <> VStr "search"
  /\ handle_request (example_runtime (Ok VNone) connection_refused)
       (VDict frobnicate_request) empty_world
     = (Ok (error_response (VInt 3) (-32601) "Tool not found: frobnicate"),
        empty_world)
  /\ contains "Tool not found: frobnicate" "frobnicate"
  /\ exists d p,
      VDict frobnicate_request = VDict d
      /\ dict_get d "method" VNone = VStr "tools/call"
      /\ dict_get d "params" (VDict []) = VDict p
      /\ dict_get p "name" VNone <> VStr "search"
      /\ VDict [("code", VInt (-32601));
                ("message", VStr "Tool not found: frobnicate")]
         = VDict [("code", VInt (-32601));
                  ("message",
                   VStr ("Tool not found: "
                         ++ py_str (example_runtime (Ok VNone)
                                      connection_refused)
                              (dict_get p "name" VNone)))].
Proof.
  assert (Hn : dict_get frobnicate_params "name" VNone <> VStr "search")
    by discriminate.
  destruct (unknown_tool_is_the_only_error
              (example_runtime (Ok VNone) connection_refused)) as [H1 H2].
  destruct (H1 frobnicate_request frobnicate_params empty_world
              eq_refl eq_refl Hn) as [Hr Hc].
  repeat (split; [first [reflexivity | exact Hn | exact Hr]|]).
  split; [exact (Hc "frobnicate" eq_refl)|].
  exact (H2 _ _ _ _ _ Hr eq_refl).
Defined.

Lemma search_never_raises_witness :
  fst (search (example_runtime (Ok VNone) connection_refused)
         (VStr "X") empty_world)
    = Ok "Request failed: Connection refused"
  /\ fst (search (example_runtime (Ok VNone) (Ok reply_500))
            (VStr "X") empty_world)
    = Ok "Error: Proxy returned status 500 - boom"
  /\ fst (search (example_runtime (Ok VNone) (Ok reply_not_json))
            (VStr "X") empty_world)
    = Ok "Request failed: Expecting value"
  /\ fst (search (example_runtime (Ok VNone) (Ok reply_array_body))
            (VStr "X") empty_world)
    = Ok "Request failed: 'list' object has no attribute 'get'".
Proof.
  split; [|split; [|split]].
  - destruct (search_never_raises
                (example_runtime (Ok VNone) connection_refused)
                (VStr "X") empty_world) as (s & E & H & _).
    rewrite E. simpl. f_equal. exact (H _ eq_refl).
  - destruct (search_never_raises
                (example_runtime (Ok VNone) (Ok reply_500))
                (VStr "X") empty_world) as (s & E & _ & H & _).
    rewrite E. simpl. f_equal. apply (H reply_500 eq_refl). discriminate.
  - destruct (search_never_raises
                (example_runtime (Ok VNone) (Ok reply_not_json))
                (VStr "X") empty_world) as (s & E & _ & _ & H & _).
    rewrite E. simpl. f_equal.
    exact (H reply_not_json _ eq_refl eq_refl eq_refl).
  - destruct (search_never_raises
                (example_runtime (Ok VNone) (Ok reply_array_body))
                (VStr "X") empty_world) as (s & E & _ & _ & _ & H).
    rewrite E. simpl. f_equal.
    exact (H reply_array_body (VList []) _ eq_refl eq_refl eq_refl eq_refl).
Defined.

Lemma search_200_concatenates_text_witness :
  status_code reply_hello = 200%Z
  /\ json reply_hello = Ok (VDict hello_body)
  /\ dict_get hello_body "content" (VList []) = VList hello_blocks
  /\ forallb block_ok hello_blocks = true
  /\ fst (search (example_runtime (Ok VNone) (Ok reply_hello))
            (VStr "X") empty_world) = Ok "hello world".
Proof.
  repeat (split; [reflexivity|]).
  exact (search_200_concatenates_text
           (example_runtime (Ok VNone) (Ok reply_hello))
           (VStr "X") empty_world reply_hello hello_body hello_blocks
           eq_refl eq_refl eq_refl eq_refl eq_refl).
Defined.

Lemma non_200_is_a_result_text_witness :
  dict_get search_request "method" VNone = VStr "tools/call"
  /\ dict_get search_request "params" (VDict []) = VDict search_params
  /\ dict_get search_params "name" VNone = VStr "search"
  /\ dict_get search_params "arguments" (VDict [])
     = VDict [("query", VStr "X")]
  /\ status_code reply_500 <> 200%Z
  /\ exists r : value,
      fst (handle_request (example_runtime (Ok VNone) (Ok reply_500))
             (VDict search_request) empty_world) = Ok r
      /\ r = tool_result (VInt 4) "Error: Proxy returned status 500 - boom"
      /\ response_field r "error" = None
      /\ contains "Error: Proxy returned status 500 - boom" "500".
Proof.
  assert (Hst : status_code reply_500 <> 200%Z) by discriminate.
  repeat (split; [first [reflexivity | exact Hst]|]).
  destruct (non_200_is_a_result_text
              (example_runtime (Ok VNone) (Ok reply_500))
              search_request search_params [("query", VStr "X")]
              empty_world reply_500 eq_refl eq_refl eq_refl eq_refl eq_refl
              Hst) as (r & Hr & Hshape & Herr & _ & _ & H500).
  exists r. split; [exact Hr|]. split; [exact Hshape|].
  split; [exact Herr|]. exact (H500 eq_refl).
Defined.

Lemma missing_query_still_searches_witness :
  dict_get bare_search_request "method" VNone = VStr "tools/call"
  /\ dict_get bare_search_request "params" (VDict [])
     = VDict [("name", VStr "search")]
  /\ dict_lookup [("name", VStr "search")] "arguments" = None
  /\ handle_request (example_runtime (Ok VNone) (Ok reply_500))
       (VDict bare_search_request) empty_world
     = (Ok (tool_result (VInt 5) "Error: Proxy returned status 500 - boom"),
        mkWorld [search_call VNone] [] []).
Proof.
  repeat (split; [reflexivity|]).
  destruct (missing_query_still_searches
              (example_runtime (Ok VNone) (Ok reply_500))
              bare_search_request [("name", VStr "search")] empty_world
              eq_refl eq_refl eq_refl (or_introl eq_refl))
    as (s & w' & r & Hs & -> & Hr & _).
  rewrite Hr. injection Hs as <- <-. reflexivity.
Defined.

Lemma non_object_line_is_logged_and_skipped_witness :
  "[1]" <> ""
  /\ (forall d, VList [VInt 1] <> VDict d)
  /\ main_loop (example_runtime (Ok (VList [VInt 1])) connection_refused)
       ["[1]"] empty_world
     = (Ok tt, mkWorld [] [] ["'list' object has no attribute 'get'"]).
Proof.
  assert (Hne : "[1]" <> "") by discriminate.
  assert (Hv : forall d, VList [VInt 1] <> VDict d) by discriminate.
  split; [exact Hne|]. split; [exact Hv|].
  destruct (non_object_line_is_logged_and_skipped
              (example_runtime (Ok (VList [VInt 1])) connection_refused)
              "[1]" (VList [VInt 1]) empty_world [] Hne eq_refl Hv)
    as [_ H].
  rewrite H. reflexivity.
Defined.

Lemma response_iff_replying_method_witness :
  well_formed_message initialize_notification
  /\ In (dict_get initialize_notification "method" VNone) replying_methods
  /\ (exists out,
        stdout (snd (loop_iteration
                       (example_runtime (Ok (VDict initialize_notification))
                          connection_refused)
                       "initialize" empty_world)) = [out])
  /\ well_formed_message ping_request
  /\ ~ In (dict_get ping_request "method" VNone) replying_methods
  /\ stdout (snd (loop_iteration
                    (example_runtime (Ok (VDict ping_request))
                       connection_refused)
                    "ping" empty_world)) = [].
Proof.
  assert (Hw1 : well_formed_message initialize_notification).
  { exists []. split; [reflexivity | now exists []]. }
  assert (Hw2 : well_formed_message ping_request).
  { exists []. split; [reflexivity | now exists []]. }
  assert (Hin : In (dict_get initialize_notification "method" VNone)
                   replying_methods) by (simpl; tauto).
  assert (Hout : ~ In (dict_get ping_request "method" VNone)
                     replying_methods).
  { simpl. intros [E | [E | [E | []]]]; discriminate E. }
  split; [exact Hw1|]. split; [exact Hin|]. split.
  - destruct (proj1 (response_iff_replying_method
                       (example_runtime (Ok (VDict initialize_notification))
                          connection_refused)
                       "initialize" initialize_notification empty_world
                       eq_refl Hw1) Hin) as (r & _ & _ & H).
    eexists. exact H.
  - split; [exact Hw2|]. split; [exact Hout|].
    exact (proj2 (response_iff_replying_method
                    (example_runtime (Ok (VDict ping_request))
                       connection_refused)
                    "ping" ping_request empty_world eq_refl Hw2) Hout).
Defined.

(** C1 as the spec states it fails in both directions: an [initialize]
    without id is answered with a line on stdout, and a request with id 1
    for the method "ping" is answered with none. *)
Lemma response_iff_id_counterexample :
  dict_lookup initialize_notification "id" = None
  /\ dict_lookup ping_request "id" = Some (VInt 1)
  /\ ~ response_iff_id
        (example_runtime (Ok (VDict initialize_notification))
           connection_refused)
        "initialize" initialize_notification empty_world
  /\ ~ response_iff_id
        (example_runtime (Ok (VDict ping_request)) connection_refused)
        "ping" ping_request empty_world.
Proof.
  split; [reflexivity|]. split; [reflexivity|]. split.
  - intros [_ H]. specialize (H eq_refl). vm_compute in H. discriminate H.
  - intros [H _]. destruct H as (out & E); [discriminate|].
    vm_compute in E. discriminate E.
Qed.

(** ** Further properties of the dispatcher, the adapter and the loop *)

Section MoreProperties.

Variable rt : runtime.

(** The four ways a call of [handle_request] ends: it raises at a [get], it
    returns [None], it returns a response without effect, or it returns the
    result of a search after one HTTP call. *)
Lemma handle_request_cases (request : value) (w : world) :
  (exists bad, handle_request rt request w
               = (Raise (attribute_error bad "get"), w))
  \/ handle_request rt request w = (Ok VNone, w)
  \/ (exists d r,
        request = VDict d
        /\ is_response (dict_get d "id" VNone) r
        /\ handle_request rt request w = (Ok r, w))
  \/ (exists d query s,
        request = VDict d
        /\ handle_request rt request w
           = (Ok (tool_result (dict_get d "id" VNone) s),
              after_post w (search_call query))).
Proof.
  destruct request as [| | | | | |d];
    try (left; eexists; apply handle_request_not_dict; discriminate).
  assert (Hresult : forall body,
             is_response (dict_get d "id" VNone)
               (result_response (dict_get d "id" VNone) body)).
  { intro body. exists "result", body. split; [now left | reflexivity]. }
  destruct (py_eq_str (dict_get d "method" VNone) "initialize") eqn:E1.
  { right; right; left. exists d. eexists. split; [reflexivity|].
    split; [apply Hresult|].
    rewrite handle_request_dict. cbv zeta. now rewrite E1. }
  destruct (py_eq_str (dict_get d "method" VNone)
              "notifications/initialized") eqn:E2.
  { right; left. rewrite handle_request_dict. cbv zeta. now rewrite E1, E2. }
  destruct (py_eq_str (dict_get d "method" VNone) "tools/list") eqn:E3.
  { right; right; left. exists d. eexists. split; [reflexivity|].
    split; [apply Hresult|].
    rewrite handle_request_dict. cbv zeta. now rewrite E1, E2, E3. }
  destruct (py_eq_str (dict_get d "method" VNone) "tools/call") eqn:E4.
  2:{ right; left. rewrite handle_request_dict. cbv zeta.
      now rewrite E1, E2, E3, E4. }
  apply py_eq_str_true in E4.
  destruct (dict_get d "params" (VDict [])) as [| | | | | |p] eqn:Hp;
    try (left; eexists; rewrite handle_request_dict; cbv zeta;
         rewrite E1, E2, E3, E4, Hp; reflexivity).
  destruct (py_eq_str (dict_get p "name" VNone) "search") eqn:Hn.
  - apply py_eq_str_true in Hn.
    destruct (dict_get p "arguments" (VDict [])) as [| | | | | |a] eqn:Ha;
      try (left; eexists; rewrite handle_request_dict; cbv zeta;
           rewrite E4, Hp; unfold bind, lift; simpl; rewrite Hn, Ha;
           reflexivity).
    right; right; right. exists d, (dict_get a "query" VNone). eexists.
    split; [reflexivity|].
    exact (handle_request_search rt d p a w E4 Hp Hn Ha).
  - apply py_eq_str_false in Hn.
    right; right; left. exists d. eexists. split; [reflexivity|].
    split; [|exact (handle_request_unknown_tool rt d p w E4 Hp Hn)].
    exists "error". eexists. split; [now right | reflexivity].
Qed.

Lemma tool_result_is_response (req_id : value) (s : string) :
  is_response req_id (tool_result req_id s).
Proof.
  exists "result". eexists. split; [now left | reflexivity].
Qed.

(** Every response that [handle_request] returns and that is not [None] is a
    response object: the version tag "2.0", the id of the request ([None]
    when it has none) and exactly one of [result] and [error]; it is truthy,
    so the test [if response] of [main] lets it through. *)
Theorem handle_request_response_shape :
  forall (request r : value) (w w' : world),
    handle_request rt request w = (Ok r, w') ->
    r <> VNone ->
    exists d,
      request = VDict d
      /\ is_response (dict_get d "id" VNone) r
      /\ py_truthy r = true.
Proof.
  intros request r w w' H Hr.
  destruct (handle_request_cases request w)
    as [(bad & E) | [E | [(d & r0 & -> & Hresp & E)
                         | (d & query & s & -> & E)]]];
    rewrite E in H.
  - discriminate H.
  - injection H as <- _. now elim Hr.
  - injection H as <- _. exists d. split; [reflexivity|].
    split; [exact Hresp|].
    destruct Hresp as (member & body & _ & ->). reflexivity.
  - injection H as <- _. exists d. split; [reflexivity|].
    split; [apply tool_result_is_response | reflexivity].
Qed.

(** [handle_request] never writes to stdout or stderr and makes at most one
    HTTP call; when it makes one, the call is the one of [search] for some
    query and the request is answered with a tool result.  A call that
    raises or returns [None] leaves the world as it was. *)
Theorem handle_request_effects :
  forall (request : value) (w : world),
    snd (handle_request rt request w) = w
    \/ exists d query s,
        request = VDict d
        /\ snd (handle_request rt request w)
           = mkWorld (posted w ++ [search_call query]) (stdout w) (stderr w)
        /\ fst (handle_request rt request w)
           = Ok (tool_result (dict_get d "id" VNone) s).
Proof.
  intros request w.
  destruct (handle_request_cases request w)
    as [(bad & E) | [E | [(d & r0 & -> & Hresp & E)
                         | (d & query & s & -> & E)]]];
    rewrite E; try (left; reflexivity).
  right. exists d, query, s. repeat split.
Qed.

(** The three ways a loop iteration ends; it never raises. *)
Lemma loop_iteration_cases (line : string) (w : world) :
  loop_iteration rt line w = (Ok tt, w)
  \/ (exists msg,
        loop_iteration rt line w
        = (Ok tt, mkWorld (posted w) (stdout w) (stderr w ++ [msg])))
  \/ (exists d r calls,
        json_loads rt line = Ok (VDict d)
        /\ is_response (dict_get d "id" VNone) r
        /\ (calls = [] \/ exists query, calls = [search_call query])
        /\ loop_iteration rt line w
           = (Ok tt,
              mkWorld (posted w ++ calls)
                      (stdout w ++ [(json_dumps rt r ++ newline)%string])
                      (stderr w))).
Proof.
  unfold loop_iteration, try_except, loop_body, bind, lift.
  destruct (json_loads rt line) as [request|e] eqn:Hl.
  2:{ right; left. destruct (exn_cls e); eexists; reflexivity. }
  destruct (handle_request_cases request w)
    as [(bad & E) | [E | [(d & r & -> & Hresp & E)
                         | (d & query & s & -> & E)]]];
    rewrite E.
  - right; left. eexists. reflexivity.
  - left. reflexivity.
  - right; right. exists d, r, []. split; [reflexivity|].
    split; [exact Hresp|]. split; [now left|].
    destruct Hresp as (member & body & _ & ->). simpl.
    rewrite app_nil_r. destruct w; reflexivity.
  - right; right. exists d. eexists. exists [search_call query].
    split; [reflexivity|]. split; [apply tool_result_is_response|].
    split; [right; now exists query | reflexivity].
Qed.

(** One line of input has one of three outcomes, and never more than one
    kind of output: nothing at all; one diagnostic on stderr, with no HTTP
    call and nothing on stdout; or one response line on stdout for a decoded
    object, its id echoed, with at most one HTTP call and nothing on
    stderr.  So a request that reached the backend is always answered. *)
Theorem loop_iteration_one_outcome :
  forall (line : string) (w : world),
    loop_iteration rt line w = (Ok tt, w)
    \/ (exists msg,
          loop_iteration rt line w
          = (Ok tt, mkWorld (posted w) (stdout w) (stderr w ++ [msg])))
    \/ (exists d r calls,
          json_loads rt line = Ok (VDict d)
          /\ is_response (dict_get d "id" VNone) r
          /\ (calls = [] \/ exists query, calls = [search_call query])
          /\ loop_iteration rt line w
             = (Ok tt,
                mkWorld (posted w ++ calls)
                        (stdout w ++ [(json_dumps rt r ++ newline)%string])
                        (stderr w))).
Proof. exact loop_iteration_cases. Qed.

(** What the loop adds to the three logs over a whole input. *)
Lemma main_loop_logs (stdin : list string) :
  forall w : world,
    exists (calls : list post_call) (outs errs : list string),
      main_loop rt stdin w
      = (Ok tt,
         mkWorld (posted w ++ calls) (stdout w ++ outs) (stderr w ++ errs))
      /\ Forall is_search_call calls
      /\ Forall (response_line rt) outs
      /\ List.length calls <= List.length outs
      /\ List.length outs + List.length errs <= List.length stdin.
Proof.
  induction stdin as [|line rest IH]; intro w.
  - exists [], [], []. simpl. rewrite !app_nil_r.
    destruct w; repeat split; auto.
  - simpl. destruct (String.eqb line "").
    + exists [], [], []. simpl. rewrite !app_nil_r.
      destruct w; repeat split; auto using Nat.le_0_l.
    + unfold bind.
      destruct (loop_iteration_cases line w)
        as [E | [(msg & E) | (d & r & calls & _ & Hresp & Hcalls & E)]];
        rewrite E.
      * destruct (IH w) as (calls & outs & errs & E' & Hc & Ho & L1 & L2).
        exists calls, outs, errs. rewrite E'.
        repeat split; auto.
      * destruct (IH (mkWorld (posted w) (stdout w) (stderr w ++ [msg])))
          as (calls & outs & errs & E' & Hc & Ho & L1 & L2).
        exists calls, outs, (msg :: errs). rewrite E'. simpl.
        rewrite <- app_assoc. simpl.
        repeat split; auto.
        rewrite Nat.add_succ_r. now apply le_n_S.
      * destruct (IH (mkWorld (posted w ++ calls)
                        (stdout w ++ [(json_dumps rt r ++ newline)%string])
                        (stderr w)))
          as (calls' & outs & errs & E' & Hc & Ho & L1 & L2).
        exists (calls ++ calls')%list,
               ((json_dumps rt r ++ newline)%string :: outs), errs.
        rewrite E'. simpl. rewrite <- !app_assoc. simpl.
        split; [reflexivity|]. split.
        { apply Forall_app. split; [|exact Hc].
          destruct Hcalls as [-> | (query & ->)]; [constructor|].
          constructor; [now exists query | constructor]. }
        split.
        { constructor; [|exact Ho]. eexists _, r. split; [exact Hresp|].
          reflexivity. }
        split.
        { rewrite length_app.
          destruct Hcalls as [-> | (query & ->)]; simpl.
          - now apply Nat.le_le_succ_r.
          - now apply le_n_S. }
        now apply le_n_S.
Qed.

(** [main] never raises and ends on every finite input.  It only appends to
    the three logs: the banner and then the diagnostics on stderr; on stdout
    nothing but response lines; and nothing but calls of [search] to the
    backend.  There are at most as many HTTP calls as response lines, and at
    most as many response lines and diagnostics together as input lines. *)
Theorem main_accounting :
  forall (stdin : list string) (w : world),
    exists (calls : list post_call) (outs errs : list string),
      main rt stdin w
      = (Ok tt,
         mkWorld (posted w ++ calls) (stdout w ++ outs)
                 (stderr w ++ banner :: errs))
      /\ Forall is_search_call calls
      /\ Forall (response_line rt) outs
      /\ List.length calls <= List.length outs
      /\ List.length outs + List.length errs <= List.length stdin.
Proof.
  intros stdin w. unfold main, bind, stderr_write.
  destruct (main_loop_logs stdin
              (mkWorld (posted w) (stdout w) (stderr w ++ [banner])))
    as (calls & outs & errs & E & H).
  exists calls, outs, errs. fold banner. rewrite E. simpl.
  rewrite <- app_assoc. simpl. split; [reflexivity | exact H].
Qed.

Lemma main_loop_ok (stdin : list string) (w : world) :
  main_loop rt stdin w = (Ok tt, snd (main_loop rt stdin w)).
Proof.
  destruct (main_loop_logs stdin w) as (calls & outs & errs & E & _).
  now rewrite E.
Qed.

(** The loop handles its input line by line, left to right: running it on
    [xs ++ ys], where no line of [xs] is the empty read that ends the
    stream, is running it on [xs] and then on [ys] from the world reached;
    and everything after an empty read is ignored. *)
Theorem main_loop_app :
  forall (xs ys : list string) (w : world),
    Forall (fun line => line <> "") xs ->
    main_loop rt (xs ++ ys) w = main_loop rt ys (snd (main_loop rt xs w))
    /\ main_loop rt (xs ++ "" :: ys) w = main_loop rt xs w.
Proof.
  intros xs ys w Hxs.
  assert (Happ : forall zs w0,
             main_loop rt (xs ++ zs) w0
             = main_loop rt zs (snd (main_loop rt xs w0))).
  { intro zs. induction Hxs as [|line rest Hne _ IH]; intro w0;
      [reflexivity|].
    simpl. apply String.eqb_neq in Hne. rewrite Hne. unfold bind.
    destruct (loop_iteration_cases line w0)
      as [E | [(msg & E) | (d & r & calls & _ & _ & _ & E)]];
      rewrite E; apply IH. }
  split; [apply Happ|].
  rewrite Happ. simpl. symmetry. apply main_loop_ok.
Qed.

(** A line that [json.loads] rejects with JSONDecodeError is reported on
    stderr as "Failed to decode JSON: <line>" and nothing else happens: no
    response, no HTTP call, and the loop goes on with the next line. *)
Theorem undecodable_line_is_reported_and_skipped :
  forall (line : string) (e : exn) (w : world) (rest : list string),
    line <> "" ->
    json_loads rt line = Raise e ->
    exn_cls e = JSONDecodeError ->
    let w' :=
      mkWorld (posted w) (stdout w)
              (stderr w ++ ["Failed to decode JSON: " ++ line ++ newline]) in
    loop_iteration rt line w = (Ok tt, w')
    /\ main_loop rt (line :: rest) w = main_loop rt rest w'.
Proof.
  intros line e w rest Hne Hl Hcls w'.
  assert (Hit : loop_iteration rt line w = (Ok tt, w')).
  { unfold loop_iteration, try_except, loop_body, bind, lift.
    rewrite Hl, Hcls. reflexivity. }
  split; [exact Hit|].
  simpl. apply String.eqb_neq in Hne. rewrite Hne.
  unfold bind. now rewrite Hit.
Qed.

(** The loop of [search] over well-shaped blocks followed by more blocks. *)
Lemma for_blocks_app (good more : list value) :
  forallb block_ok good = true ->
  forall acc : string,
    for_blocks (good ++ more) acc
    = for_blocks more (acc ++ concat_text good).
Proof.
  induction good as [|block rest IH]; intros Hok acc.
  - unfold concat_text. simpl. now rewrite str_app_empty_r.
  - simpl in Hok. apply andb_prop in Hok as [Hb Hrest].
    rewrite concat_text_cons.
    destruct block as [| | | | | |fields]; try discriminate Hb.
    simpl in *.
    destruct (py_eq_str (dict_get fields "type" VNone) "text").
    + destruct (dict_get fields "text" (VStr "")) as [| | | |t| |];
        try discriminate Hb.
      simpl. rewrite (IH Hrest). now rewrite str_app_assoc.
    + now rewrite (IH Hrest).
Qed.

Lemma for_blocks_bad (bad : value) (rest : list value) (acc : string) :
  block_ok bad = false ->
  for_blocks (bad :: rest) acc = Raise (block_error bad).
Proof.
  intro Hbad. destruct bad as [| | | | | |fields]; try reflexivity.
  simpl in *.
  destruct (py_eq_str (dict_get fields "type" VNone) "text");
    [|discriminate Hbad].
  destruct (dict_get fields "text" (VStr "")); try reflexivity.
  discriminate Hbad.
Qed.

(** One block of the wrong shape spoils the whole answer: when the content
    array of a 200 body has a first block that is not an object, or that is
    of type "text" with a [text] that is not a string, [search] returns the
    failure text of that block, whatever text the blocks before it gave and
    whatever comes after it. *)
Theorem search_first_bad_block :
  forall (query : value) (w : world) (response : http_response)
         (body : list (string * value)) (good rest : list value)
         (bad : value),
    requests_post rt (posted w) (search_call query) = Ok response ->
    status_code response = 200%Z ->
    json response = Ok (VDict body) ->
    dict_get body "content" (VList []) = VList (good ++ bad :: rest) ->
    forallb block_ok good = true ->
    block_ok bad = false ->
    fst (search rt query w)
    = Ok ("Request failed: " ++ exn_msg (block_error bad)).
Proof.
  intros query w response body good rest bad Hpost Hst Hjson Hcontent
         Hgood Hbad.
  rewrite search_eq. simpl. unfold search_outcome_text, collect_text.
  rewrite Hpost, Hst, Hjson. simpl. rewrite Hcontent. simpl.
  now rewrite (for_blocks_app good (bad :: rest) Hgood ""),
    (for_blocks_bad bad rest _ Hbad).
Qed.

(** A 200 reply whose body is not of the expected shape.  A body that is not
    an object gives the text of the AttributeError of its [get].  In a body
    that is an object, a [content] that is not a list is still iterated: an
    empty string or an empty object gives "No results found.", a non-empty
    one fails at the [get] of its first character or key, and null, a
    number or a boolean fails as not iterable. *)
Theorem search_200_unexpected_shape :
  forall (query : value) (w : world) (response : http_response),
    requests_post rt (posted w) (search_call query) = Ok response ->
    status_code response = 200%Z ->
    (forall data : value,
        json response = Ok data ->
        (forall d, data <> VDict d) ->
        fst (search rt query w)
        = Ok ("Request failed: '" ++ type_name data
              ++ "' object has no attribute 'get'"))
    /\ (forall body : list (string * value),
          json response = Ok (VDict body) ->
          (forall l, dict_get body "content" (VList []) <> VList l) ->
          fst (search rt query w)
          = Ok (odd_content_text (dict_get body "content" (VList [])))).
Proof.
  intros query w response Hpost Hst. split.
  - intros data Hjson Hdata.
    rewrite search_eq. simpl. unfold search_outcome_text, collect_text.
    rewrite Hpost, Hst, Hjson. simpl.
    now rewrite (py_get_not_dict data "content" (VList []) Hdata).
  - intros body Hjson Hcontent.
    rewrite search_eq. simpl. unfold search_outcome_text, collect_text.
    rewrite Hpost, Hst, Hjson. simpl.
    destruct (dict_get body "content" (VList [])) as [| | | |s|l|d];
      try reflexivity.
    + now destruct s.
    + now elim (Hcontent l).
    + now destruct d as [|[k v] d].
Qed.

(** [search] never returns the empty string: a failure has its prefix, and
    an empty concatenation is replaced by "No results found.". *)
Theorem search_never_empty :
  forall (query : value) (w : world),
    fst (search rt query w) <> Ok "".
Proof.
  intros query w. rewrite search_eq. simpl. unfold search_outcome_text.
  destruct (requests_post rt (posted w) (search_call query))
    as [response|e]; [|discriminate].
  destruct (status_code response =? 200)%Z; [|discriminate].
  destruct (json response) as [data|e]; [|discriminate].
  destruct (collect_text data) as [t|e]; [|discriminate].
  destruct (String.eqb t "") eqn:Et; [discriminate|].
  apply String.eqb_neq in Et. intro E. now injection E.
Qed.

(** A [tools/call] whose [params] member is there but is not a mapping
    (null, a list, a string, ...), or which names "search" with an
    [arguments] member that is not a mapping, makes [handle_request] raise
    AttributeError before any HTTP call.  The loop writes the traceback to
    stderr and no response, though the request may carry an id. *)
Theorem malformed_tools_call_is_not_answered :
  forall (d : list (string * value)) (bad : value) (w : world),
    dict_get d "method" VNone = VStr "tools/call" ->
    (forall m, bad <> VDict m) ->
    (dict_get d "params" (VDict []) = bad
     \/ exists p, dict_get d "params" (VDict []) = VDict p
                  /\ dict_get p "name" VNone = VStr "search"
                  /\ dict_get p "arguments" (VDict []) = bad) ->
    handle_request rt (VDict d) w = (Raise (attribute_error bad "get"), w)
    /\ forall line : string,
        json_loads rt line = Ok (VDict d) ->
        loop_iteration rt line w
        = (Ok tt,
           mkWorld (posted w) (stdout w)
                   (stderr w ++ [format_exc rt (attribute_error bad "get")])).
Proof.
  intros d bad w Hm Hbad Hwhere.
  assert (HR : handle_request rt (VDict d) w
               = (Raise (attribute_error bad "get"), w)).
  { rewrite handle_request_dict. cbv zeta. rewrite Hm. simpl.
    unfold bind, lift.
    destruct Hwhere as [Hp | (p & Hp & Hn & Ha)]; rewrite Hp.
    - now rewrite (py_get_not_dict bad "name" VNone Hbad).
    - simpl. rewrite Hn, Ha. simpl.
      now rewrite (py_get_not_dict bad "query" VNone Hbad). }
  split; [exact HR|].
  intros line Hl. unfold loop_iteration, try_except, loop_body, bind, lift.
  now rewrite Hl, HR.
Qed.

(** The success path end to end: a "search" call with mapping params and
    arguments, answered by the backend with 200 and a body of the expected
    shape, posts the [query] argument as it is (a missing one as [None]) and
    is answered with a result whose single content block carries the
    concatenated text of the "text" blocks, or "No results found."; the loop
    writes that response as one line on stdout and nothing on stderr. *)
Theorem search_call_success :
  forall (line : string) (d p a body : list (string * value))
         (blocks : list value) (response : http_response) (w : world),
    json_loads rt line = Ok (VDict d) ->
    dict_get d "method" VNone = VStr "tools/call" ->
    dict_get d "params" (VDict []) = VDict p ->
    dict_get p "name" VNone = VStr "search" ->
    dict_get p "arguments" (VDict []) = VDict a ->
    requests_post rt (posted w) (search_call (dict_get a "query" VNone))
      = Ok response ->
    status_code response = 200%Z ->
    json response = Ok (VDict body) ->
    dict_get body "content" (VList []) = VList blocks ->
    forallb block_ok blocks = true ->
    let answer :=
      VDict
        [("jsonrpc", VStr "2.0");
         ("id", dict_get d "id" VNone);
         ("result",
          VDict
            [("content",
              VList
                [VDict
                   [("type", VStr "text");
                    ("text",
                     VStr (if String.eqb (concat_text blocks) ""
                           then "No results found."
                           else concat_text blocks))]])])] in
    loop_iteration rt line w
    = (Ok tt,
       mkWorld (posted w ++ [search_call (dict_get a "query" VNone)])
               (stdout w ++ [(json_dumps rt answer ++ newline)%string])
               (stderr w)).
Proof.
  intros line d p a body blocks response w Hl Hm Hp Hn Ha Hpost Hst Hjson
         Hcontent Hok answer.
  pose proof (handle_request_search rt d p a w Hm Hp Hn Ha) as HR.
  cbv zeta in HR. unfold search_outcome_text, collect_text in HR.
  rewrite Hpost, Hst, Hjson in HR. simpl in HR.
  rewrite Hcontent in HR. simpl in HR.
  rewrite (for_blocks_concat blocks Hok "") in HR. simpl in HR.
  unfold loop_iteration, try_except, loop_body, bind, lift.
  rewrite Hl, HR. reflexivity.
Qed.

End MoreProperties.

(** ** The further properties at concrete inputs *)

Lemma handle_request_response_shape_witness :
  handle_request (example_runtime (Ok VNone) connection_refused)
    (VDict frobnicate_request) empty_world
  = (Ok (error_response (VInt 3) (-32601) "Tool not found: frobnicate"),
     empty_world)
  /\ error_response (VInt 3) (-32601) "Tool not found: frobnicate" <> VNone
  /\ exists d,
      VDict frobnicate_request = VDict d
      /\ is_response (dict_get d "id" VNone)
           (error_response (VInt 3) (-32601) "Tool not found: frobnicate")
      /\ py_truthy
           (error_response (VInt 3) (-32601) "Tool not found: frobnicate")
         = true.
Proof.
  assert (Hne : error_response (VInt 3) (-32601) "Tool not found: frobnicate"
                <> VNone) by discriminate.
  split; [reflexivity|]. split; [exact Hne|].
  exact (handle_request_response_shape
           (example_runtime (Ok VNone) connection_refused)
           (VDict frobnicate_request) _ empty_world empty_world eq_refl Hne).
Defined.

Lemma main_loop_app_witness :
  Forall (fun line => line <> "") ["a"; "b"]
  /\ main_loop (example_runtime (Ok (VDict tools_list_request))
                  connection_refused)
       (["a"; "b"] ++ ""%string :: ["c"]) empty_world
     = main_loop (example_runtime (Ok (VDict tools_list_request))
                    connection_refused)
         ["a"; "b"] empty_world.
Proof.
  assert (H : Forall (fun line => line <> "") ["a"; "b"]).
  { repeat constructor; discriminate. }
  split; [exact H|].
  exact (proj2 (main_loop_app
                  (example_runtime (Ok (VDict tools_list_request))
                     connection_refused)
                  ["a"; "b"] ["c"] empty_world H)).
Defined.

Lemma undecodable_line_is_reported_and_skipped_witness :
  "{oops" <> ""
  /\ main_loop
       (example_runtime (Raise (mkExn JSONDecodeError "Expecting value"))
          connection_refused)
       ["{oops"] empty_world
     = (Ok tt,
        mkWorld [] [] ["Failed to decode JSON: {oops" ++ newline]).
Proof.
  assert (Hne : "{oops" <> "") by discriminate.
  split; [exact Hne|].
  destruct (undecodable_line_is_reported_and_skipped
              (example_runtime (Raise (mkExn JSONDecodeError "Expecting value"))
                 connection_refused)
              "{oops" _ empty_world [] Hne eq_refl eq_refl) as [_ H].
  rewrite H. reflexivity.
Defined.

Lemma search_first_bad_block_witness :
  forallb block_ok [VDict [("type", VStr "text"); ("text", VStr "hello")]]
  = true
  /\ block_ok (VDict [("type", VStr "text"); ("text", VNone)]) = false
  /\ fst (search (example_runtime (Ok VNone) (Ok reply_broken))
            (VStr "X") empty_world)
     = Ok ("Request failed: can only concatenate str (not " ++ dquote
           ++ "NoneType" ++ dquote ++ ") to str").
Proof.
  split; [reflexivity|]. split; [reflexivity|].
  exact (search_first_bad_block
           (example_runtime (Ok VNone) (Ok reply_broken))
           (VStr "X") empty_world reply_broken
           [("content", VList broken_blocks)]
           [VDict [("type", VStr "text"); ("text", VStr "hello")]]
           [VDict [("type", VStr "text"); ("text", VStr " world")]]
           (VDict [("type", VStr "text"); ("text", VNone)])
           eq_refl eq_refl eq_refl eq_refl eq_refl eq_refl).
Defined.

Lemma search_200_unexpected_shape_witness :
  (forall d, VList [] <> VDict d)
  /\ (forall l, VNone <> VList l)
  /\ fst (search (example_runtime (Ok VNone) (Ok reply_array_body))
            (VStr "X") empty_world)
     = Ok "Request failed: 'list' object has no attribute 'get'"
  /\ fst (search (example_runtime (Ok VNone) (Ok reply_null_content))
            (VStr "X") empty_world)
     = Ok "Request failed: 'NoneType' object is not iterable".
Proof.
  assert (H1 : forall d, VList [] <> VDict d) by discriminate.
  assert (H2 : forall l, VNone <> VList l) by discriminate.
  split; [exact H1|]. split; [exact H2|]. split.
  - exact (proj1 (search_200_unexpected_shape
                    (example_runtime (Ok VNone) (Ok reply_array_body))
                    (VStr "X") empty_world reply_array_body eq_refl eq_refl)
             (VList []) eq_refl H1).
  - exact (proj2 (search_200_unexpected_shape
                    (example_runtime (Ok VNone) (Ok reply_null_content))
                    (VStr "X") empty_world reply_null_content eq_refl eq_refl)
             [("content", VNone)] eq_refl H2).
Defined.

Lemma malformed_tools_call_is_not_answered_witness :
  dict_get null_params_call "method" VNone = VStr "tools/call"
  /\ (forall m, VNone <> VDict m)
  /\ dict_get null_params_call "params" (VDict []) = VNone
  /\ loop_iteration (example_runtime (Ok (VDict null_params_call))
                       connection_refused)
       "call" empty_world
     = (Ok tt,
        mkWorld [] [] ["'NoneType' object has no attribute 'get'"]).
Proof.
  assert (H : forall m, VNone <> VDict m) by discriminate.
  split; [reflexivity|]. split; [exact H|]. split; [reflexivity|].
  exact (proj2 (malformed_tools_call_is_not_answered
                  (example_runtime (Ok (VDict null_params_call))
                     connection_refused)
                  null_params_call VNone empty_world eq_refl H
                  (or_introl eq_refl))
           "call" eq_refl).
Defined.

Lemma search_call_success_witness :
  dict_get search_request "method" VNone = VStr "tools/call"
  /\ dict_get search_request "params" (VDict []) = VDict search_params
  /\ dict_get search_params "name" VNone = VStr "search"
  /\ dict_get search_params "arguments" (VDict [])
     = VDict [("query", VStr "X")]
  /\ forallb block_ok hello_blocks = true
  /\ loop_iteration (example_runtime (Ok (VDict search_request))
                       (Ok reply_hello))
       "call" empty_world
     = (Ok tt,
        mkWorld [search_call (VStr "X")]
                [json_dumps (example_runtime (Ok (VDict search_request))
                               (Ok reply_hello))
                   (tool_result (VInt 4) "hello world") ++ newline]
                []).
Proof.
  repeat (split; [reflexivity|]).
  exact (search_call_success
           (example_runtime (Ok (VDict search_request)) (Ok reply_hello))
           "call" search_request search_params [("query", VStr "X")]
           hello_body hello_blocks reply_hello empty_world
           eq_refl eq_refl eq_refl eq_refl eq_refl eq_refl eq_refl eq_refl
           eq_refl eq_refl).
Defined.
